(** * Open3D core: the dtype registry and the CPU matrix-multiply dispatch

    A shallow embedding of [open3d/core/Dtype.h], [open3d/core/Dtype.cpp] and
    of [MatmulCPU] (the CPU path of the matrix-multiply dispatcher), with the
    properties of the dtype tables and of the validation / dispatch sequence
    proved over it.

    Conventions.
    - [utility::LogError] throws; code that calls it lives in an error monad
      ([Outcome]) and, where it also allocates or calls the BLAS backend, in a
      state-and-error monad ([M]) whose state survives a throw.
    - A C++ [enum class] object can hold any value of its underlying type, so
      [Dtype] is the integer code with the eight enumerators as named values;
      this is what gives the [default:] branches of the switches a meaning.
    - Memory is a list of blobs addressed by index; allocation appends.
      A blob whose last holder is destroyed is released: its index is
      recorded, and a pointer into it dangles from then on. *)

From Stdlib Require Import ZArith String Ascii List DecimalString Lia.
From stdpp Require Import base list strings.

Local Open Scope Z_scope.

(** ** Exceptions and the error monad *)

Inductive Exception : Type :=
| RuntimeError (what : string)   (* thrown by [utility::LogError] *)
| UndefinedBehavior.             (* [operator[]] past the end of a vector *)

Inductive Outcome (A : Type) : Type :=
| Returned (a : A)
| Thrown (e : Exception).
Arguments Returned {A} a.
Arguments Thrown {A} e.

Definition Outcome_bind {A B} (o : Outcome A) (k : A -> Outcome B) : Outcome B :=
  match o with
  | Returned a => k a
  | Thrown e => Thrown e
  end.

Declare Scope outcome_scope.
Delimit Scope outcome_scope with outcome.
Notation "'do' x <- e ; k" := (Outcome_bind e (fun x => k))
  (at level 10, x name, e at level 100, k at level 200) : outcome_scope.
Notation "e ;; k" := (Outcome_bind e (fun _ => k))
  (at level 100, k at level 200, right associativity) : outcome_scope.

Definition throws {A} (o : Outcome A) : Prop := exists e, o = Thrown e.

(** ** The diagnostic reporter *)

(** [fmt]'s rendering of an integer argument of a [{}] field: decimal. *)
Definition fmt_int (z : Z) : string := NilZero.string_of_int (Z.to_int z).

(** [fmt::format]: each [{}] of the format string is replaced by the next
    argument. *)
Fixpoint format (fmt : string) (args : list string) : string :=
  match fmt with
  | EmptyString => EmptyString
  | String "{"%char (String "}"%char rest) =>
      match args with
      | a :: args' => a +:+ format rest args'
      | [] => format rest []
      end
  | String c rest => String c (format rest args)
  end.

(** Modelled from the spec: [utility::LogError] (open3d/utility/Console.h is
    not part of the sources).  "A fatal-error reporting function accepting a
    formatted message; invoking it is expected to terminate the current
    operation rather than return control to the caller with a sentinel
    value"; Dtype.h documents the same: "Unsupported type will result in an
    exception". *)
Definition LogError (fmt : string) (args : list string) : Outcome unit :=
  Thrown (RuntimeError (format fmt args)).

(** ** Dtype.h *)

(** The template arguments [FromType<T>] can be instantiated with.  [int] is
    the same type as [int32_t] here (both are asserted to be four bytes wide
    and [int32_t] is its alias), so it has no constructor of its own. *)
Inductive CppType : Type :=
| c_float | c_double | c_int32_t | c_int64_t | c_uint8_t | c_uint16_t | c_bool
| c_int8_t | c_int16_t | c_uint32_t | c_uint64_t | c_char | c_long_double
| c_pointer (pointee : CppType).

#[global] Instance CppType_eq_dec : EqDecision CppType.
Proof. solve_decision. Defined.

(** The types with an explicit specialisation of [FromType]. *)
Definition supported_types : list CppType :=
  [c_float; c_double; c_int32_t; c_int64_t; c_uint8_t; c_uint16_t; c_bool].

(** The platform sizes fixed by the [static_assert]s at the top of Dtype.h. *)
Definition sizeof (T : CppType) : option Z :=
  match T with
  | c_float => Some 4
  | c_double => Some 8
  | c_int32_t => Some 4
  | c_int64_t => Some 8
  | c_uint8_t => Some 1
  | c_uint16_t => Some 2
  | c_bool => Some 1
  | _ => None
  end.

Module Dtype.
(** [enum class Dtype]: the value of the enumeration object. *)
Definition t : Type := Z.
Abbreviation Undefined := 0%Z (only parsing).
Abbreviation Float32 := 1%Z (only parsing).
Abbreviation Float64 := 2%Z (only parsing).
Abbreviation Int32 := 3%Z (only parsing).
Abbreviation Int64 := 4%Z (only parsing).
Abbreviation UInt8 := 5%Z (only parsing).
Abbreviation UInt16 := 6%Z (only parsing).
Abbreviation Bool := 7%Z (only parsing).

(** The eight enumerators, and the seven of them that name a primitive
    type. *)
Definition enumerators : list t :=
  [Undefined; Float32; Float64; Int32; Int64; UInt8; UInt16; Bool].
Definition well_known : list t :=
  [Float32; Float64; Int32; Int64; UInt8; UInt16; Bool].
End Dtype.

Module DtypeUtil.
Local Open Scope outcome_scope.

Definition ByteSize (dtype : Dtype.t) : Outcome Z :=
  let byte_size := 0 in
  do byte_size <-
    match dtype with
    | Dtype.Float32 => Returned 4
    | Dtype.Float64 => Returned 8
    | Dtype.Int32 => Returned 4
    | Dtype.Int64 => Returned 8
    | Dtype.UInt8 => Returned 1
    | Dtype.UInt16 => Returned 2
    | Dtype.Bool => Returned 1
    | _ => LogError "Unsupported data type" [] ;; Returned byte_size
    end;
  Returned byte_size.

Definition FromType (T : CppType) : Outcome Dtype.t :=
  match T with
  | c_float => Returned Dtype.Float32
  | c_double => Returned Dtype.Float64
  | c_int32_t => Returned Dtype.Int32
  | c_int64_t => Returned Dtype.Int64
  | c_uint8_t => Returned Dtype.UInt8
  | c_uint16_t => Returned Dtype.UInt16
  | c_bool => Returned Dtype.Bool
  | _ => LogError "Unsupported data type" [] ;; Returned Dtype.Undefined
  end.

Definition ToString (dtype : Dtype.t) : Outcome string :=
  let str := "" in
  do str <-
    match dtype with
    | Dtype.Undefined => Returned "Undefined"
    | Dtype.Float32 => Returned "Float32"
    | Dtype.Float64 => Returned "Float64"
    | Dtype.Int32 => Returned "Int32"
    | Dtype.Int64 => Returned "Int64"
    | Dtype.UInt8 => Returned "UInt8"
    | Dtype.UInt16 => Returned "UInt16"
    | Dtype.Bool => Returned "Bool"
    | _ => LogError "Unsupported data type" [] ;; Returned str
    end;
  Returned str.
End DtypeUtil.

Module ObjDtype.
Local Open Scope outcome_scope.

Inductive DtypeCode : Type :=
| Code_Undefined | Code_Bool | Code_Int | Code_UInt | Code_Float | Code_Object.

Record t : Type := Build {
  dtype_code_ : DtypeCode;
  byte_size_ : Z;
  name_ : string
}.

Definition ByteSize (d : t) : Z := byte_size_ d.
Definition ToString (d : t) : string := name_ d.

Section Constants.
  (** Dtype.cpp builds the eight constants from a code and a byte size
      only; the constructor's third argument does not appear there and is
      left open. *)
Variable name : DtypeCode -> Z -> string.

Definition make (code : DtypeCode) (byte_size : Z) : t :=
    Build code byte_size (name code byte_size).

Definition Undefined : t := make Code_Undefined 1.
Definition Float32 : t := make Code_Float 4.
Definition Float64 : t := make Code_Float 8.
Definition Int32 : t := make Code_Int 4.
Definition Int64 : t := make Code_Int 8.
Definition UInt8 : t := make Code_UInt 1.
Definition UInt16 : t := make Code_UInt 2.
Definition Bool : t := make Code_Bool 1.

Definition FromType (T : CppType) : Outcome t :=
    match T with
    | c_float => Returned Float32
    | c_double => Returned Float64
    | c_int32_t => Returned Int32
    | c_int64_t => Returned Int64
    | c_uint8_t => Returned UInt8
    | c_uint16_t => Returned UInt16
    | c_bool => Returned Bool
    | _ => LogError "Unsupported data type" [] ;; Returned Undefined
    end.
End Constants.
End ObjDtype.

(** ** Devices, memory and tensors *)

(** Modelled from the spec: the device tag of a tensor (open3d/core/Device.h
    is not part of the sources).  "An opaque tag identifying where the
    backing storage lives, e.g. CPU vs an accelerator". *)
Inductive Device : Type :=
| CPU
| Accelerator (id : Z).

#[global] Instance Device_eq_dec : EqDecision Device.
Proof. solve_decision. Defined.

(** A blob is one allocation: the device it lives on and its bytes. *)
Record Blob : Type := { blob_device : Device; blob_bytes : list Byte.byte }.

Definition Memory : Type := list Blob.

(** [void*]: the blob pointed into and the byte offset inside it. *)
Record Ptr : Type := { ptr_blob : nat; ptr_offset : Z }.

(** [SizeVector] is a [std::vector<int64_t>]. *)
Definition SizeVector : Type := list Z.

(** [operator[]] of a vector: reading past the end is undefined. *)
Definition SizeVector_at (v : SizeVector) (i : nat) : Outcome Z :=
  match v !! i with
  | Some x => Returned x
  | None => Thrown UndefinedBehavior
  end.

(** Modelled from the spec: the tensor (open3d/core/Tensor.h is not part of
    the sources).  "Attributes: shape (ordered sequence of dimension sizes),
    dtype (one Dtype value), device, dataPointer (address of the first
    element), contiguity (whether elements are laid out with no gaps)". *)
Record Tensor : Type := {
  shape_ : SizeVector;
  dtype_ : Dtype.t;
  device_ : Device;
  data_ptr_ : Ptr;
  contiguous_ : bool
}.

Definition GetShape (T : Tensor) : SizeVector := shape_ T.
Definition GetDtype (T : Tensor) : Dtype.t := dtype_ T.
Definition GetDevice (T : Tensor) : Device := device_ T.
Definition GetDataPtr (T : Tensor) : Ptr := data_ptr_ T.

(** [product(shape)]: the number of elements of a tensor of that shape. *)
Definition NumElements (shape : SizeVector) : Z := fold_right Z.mul 1 shape.

(** ** The BLAS interface (mkl.h) *)

Inductive CBLAS_LAYOUT : Type := CblasRowMajor | CblasColMajor.
Inductive CBLAS_TRANSPOSE : Type := CblasNoTrans | CblasTrans | CblasConjTrans.

(** A C [float], by its IEEE-754 binary32 bit pattern. *)
Inductive float32 : Type := float32_of_bits (bits : Z).
Definition float_1_0f : float32 := float32_of_bits 0x3F800000.
Definition float_0_0f : float32 := float32_of_bits 0.

(** [float*] and [const float*]: an address the callee reads as 32-bit
    floats.  [static_cast] from [void*] keeps the address. *)
Inductive float_ptr : Type := static_cast_float (p : Ptr).
Definition address (p : float_ptr) : Ptr := let 'static_cast_float q := p in q.

(** The argument list of one call of [cblas_sgemm], in declaration order.
    The dimensions and leading dimensions are recorded as the [int64_t]
    values the caller passes. *)
Record sgemm_args : Type := {
  arg_Layout : CBLAS_LAYOUT;
  arg_TransA : CBLAS_TRANSPOSE;
  arg_TransB : CBLAS_TRANSPOSE;
  arg_M : Z;
  arg_N : Z;
  arg_K : Z;
  arg_alpha : float32;
  arg_A : float_ptr;
  arg_lda : Z;
  arg_B : float_ptr;
  arg_ldb : Z;
  arg_beta : float32;
  arg_C : float_ptr;
  arg_ldc : Z
}.

(** What the backend sees of one call: the routine (the single-precision
    GEMM is the only one called), its arguments and the memory at the time
    of the call. *)
Inductive BackendCall : Type :=
| Call_cblas_sgemm (args : sgemm_args) (mem_at_call : Memory).

(** ** The state-and-error monad *)

Record State : Type := {
  memory : Memory;
  backend_calls : list BackendCall;
  released : list nat
}.

Definition M (A : Type) : Type := State -> Outcome A * State.

Definition M_ret {A} (a : A) : M A := fun s => (Returned a, s).

Definition M_bind {A B} (m : M A) (k : A -> M B) : M B :=
  fun s =>
    match m s with
    | (Returned a, s') => k a s'
    | (Thrown e, s') => (Thrown e, s')
    end.

(** An [Outcome] computation run inside [M]: the state is not touched. *)
Definition lift {A} (o : Outcome A) : M A := fun s => (o, s).

Declare Scope M_scope.
Delimit Scope M_scope with M.
Notation "'do' x <- e ; k" := (M_bind e (fun x => k))
  (at level 10, x name, e at level 100, k at level 200) : M_scope.
Notation "e ;; k" := (M_bind e (fun _ => k))
  (at level 100, k at level 200, right associativity) : M_scope.

(** [if (c) { body }] *)
Definition when (c : bool) (body : M unit) : M unit :=
  if c then body else M_ret tt.

(** A new blob holding [bytes] on [device]; the pointer to its start. *)
Definition allocate (device : Device) (bytes : list Byte.byte) : M Ptr :=
  fun s =>
    (Returned {| ptr_blob := length (memory s); ptr_offset := 0 |},
     {| memory := memory s ++ [{| blob_device := device; blob_bytes := bytes |}];
        backend_calls := backend_calls s;
        released := released s |}).

(** The storage of blob [blob] goes back to the allocator. *)
Definition release (blob : nat) : M unit :=
  fun s =>
    (Returned tt,
     {| memory := memory s;
        backend_calls := backend_calls s;
        released := released s ++ [blob] |}).

Definition get_memory : M Memory := fun s => (Returned (memory s), s).

(** Modelled from the spec: [Tensor::Zeros] (open3d/core/Tensor.cpp is not
    part of the sources).  "A zero-filled tensor factory takes a shape, a
    dtype, and a device, allocates a buffer sized byteSize(dtype) *
    product(shape), and zero-initializes it". *)
Definition Zeros (shape : SizeVector) (dtype : Dtype.t) (device : Device)
  : M Tensor :=
  (do byte_size <- lift (DtypeUtil.ByteSize dtype);
   do ptr <- allocate device
               (replicate (Z.to_nat (byte_size * NumElements shape)) Byte.x00);
   M_ret {| shape_ := shape; dtype_ := dtype; device_ := device;
            data_ptr_ := ptr; contiguous_ := true |})%M.

Section Matmul.

(** The dense bytes of the elements a view covers, for the copy a
    non-contiguous view needs; the strides that decide them are not part of
    the tensor as the spec describes it. *)
Variable dense_bytes : Tensor -> Memory -> list Byte.byte.

(** What the external GEMM routine does to memory. *)
Variable sgemm_effect : sgemm_args -> Memory -> Memory.

(** Modelled from the spec: [Tensor::Contiguous] (open3d/core/Tensor.cpp is
    not part of the sources).  "If the source is already in that layout it
    is a no-op aliasing view, otherwise it performs a copy". *)
Definition Contiguous (T : Tensor) : M Tensor :=
  (if contiguous_ T then M_ret T
   else
     do mem <- get_memory;
     do ptr <- allocate (device_ T) (dense_bytes T mem);
     M_ret {| shape_ := shape_ T; dtype_ := dtype_ T; device_ := device_ T;
              data_ptr_ := ptr; contiguous_ := true |})%M.

(** The call of the external routine: the backend sees the arguments and
    the memory, and memory becomes what the routine leaves. *)
Definition cblas_sgemm (Layout : CBLAS_LAYOUT) (TransA TransB : CBLAS_TRANSPOSE)
    (m n k : Z) (alpha : float32) (A : float_ptr) (lda : Z)
    (B : float_ptr) (ldb : Z) (beta : float32) (C : float_ptr) (ldc : Z)
  : M unit :=
  fun s =>
    let args := {| arg_Layout := Layout; arg_TransA := TransA;
                   arg_TransB := TransB; arg_M := m; arg_N := n; arg_K := k;
                   arg_alpha := alpha; arg_A := A; arg_lda := lda;
                   arg_B := B; arg_ldb := ldb; arg_beta := beta;
                   arg_C := C; arg_ldc := ldc |} in
    (Returned tt,
     {| memory := sgemm_effect args (memory s);
        backend_calls :=
          backend_calls s ++ [Call_cblas_sgemm args (memory s)];
        released := released s |}).

(** Modelled from the spec: the end of the lifetime of the temporary
    [source.Contiguous()] (the tensor's destructor is not part of the
    sources).  "A Tensor's data buffer may be exclusively owned by that
    Tensor or shared with other Tensor views (reference-counted; lifetime =
    longest holder)", and it is "destroyed when the last owning/sharing
    reference is released".  The temporary that aliases a contiguous
    [source] shares its buffer, which lives on with [source]; the temporary
    that is the copy of a non-contiguous [source] is the only holder of its
    buffer, which is released with it. *)
Definition destroy_temporary (source temporary : Tensor) : M unit :=
  if contiguous_ source then M_ret tt
  else release (ptr_blob (GetDataPtr temporary)).

Definition MatmulCPU (A B : Tensor) : M Tensor :=
  (let A_shape := GetShape A in
   let B_shape := GetShape B in
   when (negb (length A_shape =? 2)%nat)
     (lift (LogError "Tensor A must be 2D, but got {}D"
              [fmt_int (Z.of_nat (length A_shape))])) ;;
   when (negb (length B_shape =? 2)%nat)
     (lift (LogError "Tensor B must be 2D, but got {}D"
              [fmt_int (Z.of_nat (length B_shape))])) ;;
   do a1 <- lift (SizeVector_at A_shape 1);
   do b0 <- lift (SizeVector_at B_shape 0);
   when (negb (a1 =? b0))
     (lift (LogError "Tensor A columns {} mismatch with Tensor B rows {}"
              [fmt_int a1; fmt_int b0])) ;;
   do m <- lift (SizeVector_at A_shape 0);
   do k <- lift (SizeVector_at A_shape 1);
   do n <- lift (SizeVector_at B_shape 1);
   do C <- Zeros [m; n] (GetDtype A) (GetDevice A);
   let alpha := float_1_0f in
   let beta := float_0_0f in
   do A_contiguous <- Contiguous A;
   let A_data := GetDataPtr A_contiguous in
   destroy_temporary A A_contiguous ;;
   do B_contiguous <- Contiguous B;
   let B_data := GetDataPtr B_contiguous in
   destroy_temporary B B_contiguous ;;
   let C_data := GetDataPtr C in
   cblas_sgemm CblasColMajor CblasNoTrans CblasNoTrans
               m n k
               alpha
               (static_cast_float A_data) m
               (static_cast_float B_data) k
               beta
               (static_cast_float C_data) m ;;
   M_ret C)%M.

End Matmul.

(** The blob [Zeros] allocates: [bytes] zero bytes on [device]. *)
Definition zero_blob (device : Device) (bytes : Z) : Blob :=
  {| blob_device := device; blob_bytes := replicate (Z.to_nat bytes) Byte.x00 |}.

(** The result tensor [MatmulCPU] builds when memory holds [blobs] blobs. *)
Definition result_tensor (A : Tensor) (m n : Z) (blobs : nat) : Tensor :=
  {| shape_ := [m; n]; dtype_ := GetDtype A; device_ := GetDevice A;
     data_ptr_ := {| ptr_blob := blobs; ptr_offset := 0 |};
     contiguous_ := true |}.

(** The argument list [MatmulCPU] passes for dimensions [m], [n], [k] and
    the three data pointers. *)
Definition matmul_args (m n k : Z) (A_data B_data C_data : Ptr) : sgemm_args :=
  {| arg_Layout := CblasColMajor; arg_TransA := CblasNoTrans;
     arg_TransB := CblasNoTrans; arg_M := m; arg_N := n; arg_K := k;
     arg_alpha := float_1_0f; arg_A := static_cast_float A_data; arg_lda := m;
     arg_B := static_cast_float B_data; arg_ldb := k; arg_beta := float_0_0f;
     arg_C := static_cast_float C_data; arg_ldc := m |}.

(** The bytes a call of [cblas_sgemm] with at least one row and one column
    stores through its output pointer: the M by N matrix of 4-byte floats
    whose lines (columns in column-major layout, rows in row-major) lie
    [ldc] elements apart ends after this many bytes. *)
Definition sgemm_output_extent (args : sgemm_args) : Z :=
  match arg_Layout args with
  | CblasColMajor => 4 * (arg_ldc args * (arg_N args - 1) + arg_M args)
  | CblasRowMajor => 4 * (arg_ldc args * (arg_M args - 1) + arg_N args)
  end.

(** The data pointer [T.Contiguous().GetDataPtr()] leaves behind once the
    temporary is gone, and the state then. *)
Definition contiguous_step (dense_bytes : Tensor -> Memory -> list Byte.byte)
    (T : Tensor) (s : State) : Ptr * State :=
  if contiguous_ T then (GetDataPtr T, s)
  else
    ({| ptr_blob := length (memory s); ptr_offset := 0 |},
     {| memory := memory s ++ [{| blob_device := device_ T;
                                  blob_bytes := dense_bytes T (memory s) |}];
        backend_calls := backend_calls s;
        released := released s ++ [length (memory s)] |}).

(** ** Concrete operands and a concrete backend, for evaluation *)

(** A stand-in for the external routine: it overwrites every byte of the
    blob its output argument points into. *)
Definition overwrite_blob (b : Blob) : Blob :=
  {| blob_device := blob_device b;
     blob_bytes := (fun _ => Byte.x3f) <$> blob_bytes b |}.

Definition overwriting_sgemm (args : sgemm_args) (mem : Memory) : Memory :=
  alter overwrite_blob (ptr_blob (address (arg_C args))) mem.

Definition sample_dense_bytes (T : Tensor) (mem : Memory) : list Byte.byte :=
  replicate 4 Byte.x11.

Definition make_tensor (shape : SizeVector) (dtype : Dtype.t) (device : Device)
    (blob : nat) (contiguous : bool) : Tensor :=
  {| shape_ := shape; dtype_ := dtype; device_ := device;
     data_ptr_ := {| ptr_blob := blob; ptr_offset := 0 |};
     contiguous_ := contiguous |}.

Definition two_blobs : State :=
  {| memory := [ {| blob_device := CPU; blob_bytes := replicate 24 Byte.x01 |};
                 {| blob_device := CPU; blob_bytes := replicate 12 Byte.x02 |} ];
     backend_calls := [];
     released := [] |}.

Definition A_2x3 : Tensor := make_tensor [2; 3] Dtype.Float32 CPU 0 true.
Definition B_3x1 : Tensor := make_tensor [3; 1] Dtype.Float32 CPU 1 true.
Definition B_4x5 : Tensor := make_tensor [4; 5] Dtype.Float32 CPU 1 true.
Definition A_rank3 : Tensor := make_tensor [1; 2; 3] Dtype.Float32 CPU 0 true.
Definition A_2x3_int64 : Tensor := make_tensor [2; 3] Dtype.Int64 CPU 0 true.
Definition B_3x1_uint8_strided : Tensor :=
  make_tensor [3; 1] Dtype.UInt8 (Accelerator 0) 1 false.

Definition A_2x3_undefined : Tensor :=
  make_tensor [2; 3] Dtype.Undefined CPU 0 true.
Definition A_2x3_uint8 : Tensor := make_tensor [2; 3] Dtype.UInt8 CPU 0 true.
Definition A_2x3_elsewhere : Tensor :=
  make_tensor [2; 3] Dtype.Float32 CPU 1 false.

(** The value a computation returns, mapped through [f]; a throw is kept. *)
Definition Outcome_map {A B} (f : A -> B) (o : Outcome A) : Outcome B :=
  Outcome_bind o (fun a => Returned (f a)).

(** The kinds that appear as the stem of a dtype label with a width. *)
Definition width_kinds : list string := ["Float"; "Int"; "UInt"]%string.

(** ** Evaluation on small inputs *)

Example ByteSize_Int64 : DtypeUtil.ByteSize Dtype.Int64 = Returned 8.
Proof. reflexivity. Qed.

Example ToString_9 :
  DtypeUtil.ToString 9 = Thrown (RuntimeError "Unsupported data type").
Proof. reflexivity. Qed.

Example format_two :
  format "Tensor A columns {} mismatch with Tensor B rows {}" [fmt_int 3; fmt_int 4]
  = "Tensor A columns 3 mismatch with Tensor B rows 4".
Proof. reflexivity. Qed.

Example fmt_int_0 : fmt_int 0 = "0" /\ fmt_int (-12) = "-12".
Proof. split; reflexivity. Qed.

Example MatmulCPU_2x3_3x1 :
  (MatmulCPU sample_dense_bytes overwriting_sgemm A_2x3 B_3x1 two_blobs).1
  = Returned (make_tensor [2; 1] Dtype.Float32 CPU 2 true).
Proof. reflexivity. Qed.

(** ** The dtype registry *)

(** Membership in a list written out in full. *)
Ltac in_list :=
  solve [ repeat first [ apply list_elem_of_here | apply list_elem_of_further ] ].

Lemma ByteSize_well_known (d : Dtype.t) :
  d ∈ Dtype.well_known <-> exists bs, DtypeUtil.ByteSize d = Returned bs.
Proof.
  unfold Dtype.well_known. split.
  - rewrite !elem_of_cons, elem_of_nil.
    intros H; repeat destruct H as [-> | H]; try (eexists; reflexivity).
    contradiction.
  - intros [bs H].
    destruct d as [|p|p]; try discriminate H.
    destruct p as [[[p|p|]|[p|p|]|]|[[p|p|]|[p|p|]|]|];
      try discriminate H; in_list.
Qed.

Lemma ByteSize_not_well_known (d : Dtype.t) :
  d ∉ Dtype.well_known ->
  DtypeUtil.ByteSize d = Thrown (RuntimeError "Unsupported data type").
Proof.
  intros H.
  destruct d as [|p|p]; try reflexivity.
  destruct p as [[[p|p|]|[p|p|]|]|[[p|p|]|[p|p|]|]|];
    try reflexivity; exfalso; apply H; unfold Dtype.well_known; in_list.
Qed.

Lemma ToString_not_enumerator (d : Dtype.t) :
  d ∉ Dtype.enumerators ->
  DtypeUtil.ToString d = Thrown (RuntimeError "Unsupported data type").
Proof.
  intros H.
  destruct d as [|p|p]; try reflexivity;
    try (exfalso; apply H; unfold Dtype.enumerators; in_list).
  destruct p as [[[p|p|]|[p|p|]|]|[[p|p|]|[p|p|]|]|];
    try reflexivity; exfalso; apply H; unfold Dtype.enumerators; in_list.
Qed.

(** C5.  For each of the seven supported primitive types [T],
    [ByteSize (FromType<T>())] is the platform size of [T] (4, 8, 4, 8, 1, 2
    and 1 bytes), and [ToString (FromType<T>())] returns a label, the seven
    labels being pairwise distinct. *)
Theorem FromType_ByteSize_ToString :
  Forall (fun T => exists d size,
            DtypeUtil.FromType T = Returned d /\
            sizeof T = Some size /\
            DtypeUtil.ByteSize d = Returned size) supported_types
  /\ map (fun T => Outcome_bind (DtypeUtil.FromType T) DtypeUtil.ByteSize)
         supported_types
     = map Returned [4; 8; 4; 8; 1; 2; 1]
  /\ exists labels,
       map (fun T => Outcome_bind (DtypeUtil.FromType T) DtypeUtil.ToString)
           supported_types
       = map Returned labels
       /\ NoDup labels.
Proof.
  split; [|split].
  - unfold supported_types.
    repeat (apply Forall_cons; split;
            [eexists _, _; repeat split; reflexivity|]).
    apply Forall_nil_2.
  - reflexivity.
  - exists ["Float32"; "Float64"; "Int32"; "Int64"; "UInt8"; "UInt16"; "Bool"]%string.
    split; [reflexivity|].
    apply (bool_decide_unpack _). vm_compute. exact I.
Qed.

(** C6.  For a type [T] outside the seven supported ones, [FromType<T>()]
    throws with the message "Unsupported data type", for [DtypeUtil] and for
    [ObjDtype] alike, and so returns no dtype at all. *)
Theorem FromType_unsupported (T : CppType) :
  T ∉ supported_types ->
  DtypeUtil.FromType T = Thrown (RuntimeError "Unsupported data type")
  /\ (forall name,
        ObjDtype.FromType name T = Thrown (RuntimeError "Unsupported data type"))
  /\ (forall d, DtypeUtil.FromType T <> Returned d).
Proof.
  intros H.
  assert (E : DtypeUtil.FromType T = Thrown (RuntimeError "Unsupported data type")
              /\ forall name, ObjDtype.FromType name T
                              = Thrown (RuntimeError "Unsupported data type")).
  { destruct T; try (split; [reflexivity | intros; reflexivity]);
      exfalso; apply H; unfold supported_types; in_list. }
  destruct E as [E1 E2]. repeat split; try assumption.
  intros d; rewrite E1; discriminate.
Qed.

Lemma FromType_unsupported_witness :
  (c_uint32_t ∉ supported_types)
  /\ DtypeUtil.FromType c_uint32_t = Thrown (RuntimeError "Unsupported data type").
Proof.
  assert (H : c_uint32_t ∉ supported_types) by (apply (bool_decide_unpack _); exact I).
  split; [exact H | exact (proj1 (FromType_unsupported c_uint32_t H))].
Defined.

(** C7, as the code has it.  For a dtype value that is not one of the seven
    well-known dtypes, [ByteSize] throws "Unsupported data type"; [ToString]
    throws it too unless the value is [Undefined], for which it returns the
    label "Undefined". *)
Theorem ByteSize_ToString_outside_well_known (d : Dtype.t) :
  d ∉ Dtype.well_known ->
  DtypeUtil.ByteSize d = Thrown (RuntimeError "Unsupported data type")
  /\ DtypeUtil.ToString d
     = if decide (d = Dtype.Undefined) then Returned "Undefined"%string
       else Thrown (RuntimeError "Unsupported data type").
Proof.
  intros H. split; [apply ByteSize_not_well_known, H|].
  destruct (decide (d = 0)) as [-> | Hne]; [reflexivity|].
  apply ToString_not_enumerator.
  unfold Dtype.enumerators. rewrite not_elem_of_cons. split; [exact Hne | exact H].
Qed.

Lemma ByteSize_ToString_outside_well_known_witness :
  (8 ∉ Dtype.well_known)
  /\ DtypeUtil.ByteSize 8 = Thrown (RuntimeError "Unsupported data type")
  /\ DtypeUtil.ToString 8 = Thrown (RuntimeError "Unsupported data type").
Proof.
  assert (H : 8 ∉ Dtype.well_known) by (apply (bool_decide_unpack _); exact I).
  split; [exact H | exact (ByteSize_ToString_outside_well_known 8 H)].
Defined.

(** C7 as stated fails at [Undefined]: [ToString] has a case for it and
    returns its label instead of throwing. *)
Lemma ToString_Undefined_does_not_throw :
  DtypeUtil.ToString Dtype.Undefined = Returned "Undefined"%string
  /\ ~ (throws (DtypeUtil.ByteSize Dtype.Undefined)
        /\ throws (DtypeUtil.ToString Dtype.Undefined)).
Proof.
  split; [reflexivity|].
  intros [_ [e H]]. discriminate H.
Qed.

(** ** The CPU matrix-multiply path *)

Lemma append_empty_r (s : string) : s +:+ "" = s.
Proof.
  induction s as [|c s IH]; [reflexivity|].
  change (String c (s +:+ "") = String c s). rewrite IH. reflexivity.
Qed.

(** The text of the inner-dimension diagnostic. *)
Lemma format_columns_rows (a b : string) :
  format "Tensor A columns {} mismatch with Tensor B rows {}" [a; b]
  = "Tensor A columns " +:+ a +:+ " mismatch with Tensor B rows " +:+ b.
Proof.
  change (format "Tensor A columns {} mismatch with Tensor B rows {}" [a; b])
    with ("Tensor A columns " +:+ a +:+ " mismatch with Tensor B rows "
          +:+ b +:+ "").
  rewrite append_empty_r. reflexivity.
Qed.

Section MatmulProperties.

Variable dense_bytes : Tensor -> Memory -> list Byte.byte.
Variable sgemm_effect : sgemm_args -> Memory -> Memory.

Local Abbreviation MatmulCPU' := (MatmulCPU dense_bytes sgemm_effect).

Lemma Zeros_run shape dtype device bs s :
  DtypeUtil.ByteSize dtype = Returned bs ->
  Zeros shape dtype device s
  = (Returned {| shape_ := shape; dtype_ := dtype; device_ := device;
                 data_ptr_ := {| ptr_blob := length (memory s); ptr_offset := 0 |};
                 contiguous_ := true |},
     {| memory := memory s ++ [zero_blob device (bs * NumElements shape)];
        backend_calls := backend_calls s;
        released := released s |}).
Proof.
  intros H. unfold Zeros, M_bind, lift. rewrite H. reflexivity.
Qed.

Lemma Zeros_throws shape dtype device e s :
  DtypeUtil.ByteSize dtype = Thrown e ->
  Zeros shape dtype device s = (Thrown e, s).
Proof.
  intros H. unfold Zeros, M_bind, lift. rewrite H. reflexivity.
Qed.

(** One contiguity step, [T.Contiguous().GetDataPtr()] with the temporary
    destroyed after it: no backend call, memory only grows, and a copy, when
    one is made, is released again. *)
Lemma contiguous_step_facts (T : Tensor) (s : State) :
  backend_calls (contiguous_step dense_bytes T s).2 = backend_calls s
  /\ memory s `prefix_of` memory (contiguous_step dense_bytes T s).2
  /\ (contiguous_ T = true ->
      contiguous_step dense_bytes T s = (GetDataPtr T, s))
  /\ (contiguous_ T = false ->
      (contiguous_step dense_bytes T s).1
      = {| ptr_blob := length (memory s); ptr_offset := 0 |}
      /\ released (contiguous_step dense_bytes T s).2
         = released s ++ [length (memory s)]).
Proof.
  unfold contiguous_step. destruct (contiguous_ T).
  - repeat split; try reflexivity; discriminate.
  - cbn. repeat split; try reflexivity; try discriminate.
    apply prefix_app_r. reflexivity.
Qed.

(** The run on operands that pass the three checks and whose dtype has a
    byte size: one allocation, two contiguity steps, one backend call. *)
Lemma MatmulCPU_run A B s m k n bs :
  GetShape A = [m; k] ->
  GetShape B = [k; n] ->
  DtypeUtil.ByteSize (GetDtype A) = Returned bs ->
  MatmulCPU' A B s
  = let C := result_tensor A m n (length (memory s)) in
    let s1 := {| memory := memory s ++ [zero_blob (GetDevice A) (bs * (m * n))];
                 backend_calls := backend_calls s;
                 released := released s |} in
    let a := contiguous_step dense_bytes A s1 in
    let b := contiguous_step dense_bytes B a.2 in
    let args := matmul_args m n k a.1 b.1 (GetDataPtr C) in
    (Returned C,
     {| memory := sgemm_effect args (memory b.2);
        backend_calls := backend_calls b.2 ++ [Call_cblas_sgemm args (memory b.2)];
        released := released b.2 |}).
Proof.
  intros HA HB Hbs.
  pose proof (Zeros_run [m; n] (GetDtype A) (GetDevice A) bs s Hbs) as HZ.
  cbn [NumElements fold_right] in HZ. rewrite Z.mul_1_r in HZ.
  unfold MatmulCPU. rewrite HA, HB. cbn [length Nat.eqb negb when].
  do 2 (unfold M_bind at 1; cbn [M_ret]).
  do 2 (unfold M_bind at 1; cbn [lift SizeVector_at lookup list_lookup]).
  rewrite Z.eqb_refl. cbn [negb when].
  unfold M_bind at 1. cbn [M_ret].
  do 3 (unfold M_bind at 1; cbn [lift SizeVector_at lookup list_lookup]).
  unfold M_bind at 1. rewrite HZ. cbv zeta.
  unfold contiguous_step, Contiguous, destroy_temporary.
  destruct (contiguous_ A), (contiguous_ B); reflexivity.
Qed.

(** What the backend is handed at the call, for operands that pass the
    checks: the memory then extends the caller's memory by the zero-filled
    blob of [C], and no backend call came before. *)
Lemma MatmulCPU_run_memory A B s m k n bs :
  GetShape A = [m; k] ->
  GetShape B = [k; n] ->
  DtypeUtil.ByteSize (GetDtype A) = Returned bs ->
  exists A_data B_data mem rel,
    let C := result_tensor A m n (length (memory s)) in
    let args := matmul_args m n k A_data B_data (GetDataPtr C) in
    MatmulCPU' A B s
    = (Returned C,
       {| memory := sgemm_effect args mem;
          backend_calls := backend_calls s ++ [Call_cblas_sgemm args mem];
          released := rel |})
    /\ (memory s ++ [zero_blob (GetDevice A) (bs * (m * n))]) `prefix_of` mem.
Proof.
  intros HA HB Hbs.
  rewrite (MatmulCPU_run A B s m k n bs HA HB Hbs). cbv zeta.
  set (s1 := {| memory := memory s ++ _ |}).
  destruct (contiguous_step_facts A s1) as (Hc2 & Hp2 & _).
  destruct (contiguous_step_facts B (contiguous_step dense_bytes A s1).2)
    as (Hc3 & Hp3 & _).
  eexists _, _, _, _. split.
  - rewrite Hc3, Hc2. reflexivity.
  - etransitivity; [|exact Hp3]. exact Hp2.
Qed.

(** C1.  For [A] of shape (m,k) and [B] of shape (k,n) with m, k, n >= 1,
    [A] being an operand in the sense of the data model (its dtype is one of
    the seven well-known dtypes), [MatmulCPU A B] returns a tensor of shape
    (m,n) with the dtype and the device of [A]. *)
Theorem MatmulCPU_result A B s m k n :
  GetShape A = [m; k] ->
  GetShape B = [k; n] ->
  1 <= m -> 1 <= k -> 1 <= n ->
  GetDtype A ∈ Dtype.well_known ->
  exists C,
    (MatmulCPU' A B s).1 = Returned C
    /\ GetShape C = [m; n]
    /\ GetDtype C = GetDtype A
    /\ GetDevice C = GetDevice A.
Proof.
  intros HA HB _ _ _ Hd.
  apply ByteSize_well_known in Hd as [bs Hbs].
  destruct (MatmulCPU_run_memory A B s m k n bs HA HB Hbs)
    as (A_data & B_data & mem & rel & Hrun & _).
  cbv zeta in Hrun. rewrite Hrun.
  eexists. split; [reflexivity|]. repeat split.
Qed.

(** C2.  When [A] or [B] is not of rank 2, [MatmulCPU] throws: for [A] the
    message is "Tensor A must be 2D, but got <rank of A>D", and for [B],
    checked once [A] has passed, "Tensor B must be 2D, but got <rank of
    B>D".  The state after the throw is the state before the call: no
    backend call was made and nothing was allocated. *)
Theorem MatmulCPU_rank_check A B s :
  length (GetShape A) <> 2%nat \/ length (GetShape B) <> 2%nat ->
  MatmulCPU' A B s
  = (Thrown (RuntimeError
       (if decide (length (GetShape A) = 2%nat)
        then "Tensor B must be 2D, but got "
             +:+ fmt_int (Z.of_nat (length (GetShape B))) +:+ "D"
        else "Tensor A must be 2D, but got "
             +:+ fmt_int (Z.of_nat (length (GetShape A))) +:+ "D")),
     s).
Proof.
  intros H. unfold MatmulCPU.
  destruct (decide (length (GetShape A) = 2%nat)) as [EA | NA].
  - assert (NB : length (GetShape B) <> 2%nat) by (destruct H; congruence).
    apply Nat.eqb_eq in EA. apply Nat.eqb_neq in NB.
    rewrite EA, NB. reflexivity.
  - apply Nat.eqb_neq in NA. rewrite NA. reflexivity.
Qed.

(** C3.  For rank-2 operands whose inner dimensions disagree, [MatmulCPU]
    throws with the message "Tensor A columns <A.shape[1]> mismatch with
    Tensor B rows <B.shape[0]>", which carries both sizes; the state is
    left as it was. *)
Theorem MatmulCPU_inner_dimension_check A B s m k k' n :
  GetShape A = [m; k] ->
  GetShape B = [k'; n] ->
  k <> k' ->
  MatmulCPU' A B s
  = (Thrown (RuntimeError
       ("Tensor A columns " +:+ fmt_int k
        +:+ " mismatch with Tensor B rows " +:+ fmt_int k')),
     s).
Proof.
  intros HA HB Hne. unfold MatmulCPU. rewrite HA, HB.
  cbn [length Nat.eqb negb when].
  do 2 (unfold M_bind at 1; cbn [M_ret]).
  do 2 (unfold M_bind at 1; cbn [lift SizeVector_at lookup list_lookup]).
  apply Z.eqb_neq in Hne. rewrite Hne.
  rewrite <- format_columns_rows. reflexivity.
Qed.

(** C4.  For operands that pass the checks, the run makes exactly one
    backend call, of [cblas_sgemm], with column-major layout, no transpose
    on either operand, dimensions (m, n, k), alpha = 1.0f, beta = 0.0f and
    leading dimensions m, k and m for [A], [B] and [C]; in the memory the
    backend is handed, the blob the output pointer points to is the buffer
    of [C], holding byteSize * m * n zero bytes. *)
Theorem MatmulCPU_sgemm_call A B s m k n bs :
  GetShape A = [m; k] ->
  GetShape B = [k; n] ->
  DtypeUtil.ByteSize (GetDtype A) = Returned bs ->
  exists args mem,
    backend_calls (MatmulCPU' A B s).2
    = backend_calls s ++ [Call_cblas_sgemm args mem]
    /\ arg_Layout args = CblasColMajor
    /\ arg_TransA args = CblasNoTrans
    /\ arg_TransB args = CblasNoTrans
    /\ (arg_M args, arg_N args, arg_K args) = (m, n, k)
    /\ arg_alpha args = float32_of_bits 0x3F800000
    /\ arg_beta args = float32_of_bits 0
    /\ (arg_lda args, arg_ldb args, arg_ldc args) = (m, k, m)
    /\ ptr_offset (address (arg_C args)) = 0
    /\ mem !! ptr_blob (address (arg_C args))
       = Some {| blob_device := GetDevice A;
                 blob_bytes := replicate (Z.to_nat (bs * (m * n))) Byte.x00 |}.
Proof.
  intros HA HB Hbs.
  destruct (MatmulCPU_run_memory A B s m k n bs HA HB Hbs)
    as (A_data & B_data & mem & rel & Hrun & Hmem).
  cbv zeta in Hrun. rewrite Hrun.
  eexists _, mem. split; [reflexivity|].
  repeat split.
  cbn [address arg_C matmul_args GetDataPtr data_ptr_ result_tensor ptr_blob].
  eapply prefix_lookup_Some; [|exact Hmem].
  rewrite lookup_app_r by reflexivity.
  rewrite Nat.sub_diag. reflexivity.
Qed.

(** C8.  Operands that pass the shape checks and differ in dtype or in
    device are not rejected: the run returns [C], whose buffer has been
    allocated by the time of the one backend call it makes. *)
Theorem MatmulCPU_no_dtype_device_check A B s m k n :
  GetShape A = [m; k] ->
  GetShape B = [k; n] ->
  GetDtype A ∈ Dtype.well_known ->
  GetDtype A <> GetDtype B \/ GetDevice A <> GetDevice B ->
  exists C args mem,
    (MatmulCPU' A B s).1 = Returned C
    /\ backend_calls (MatmulCPU' A B s).2
       = backend_calls s ++ [Call_cblas_sgemm args mem]
    /\ memory s !! ptr_blob (GetDataPtr C) = None
    /\ is_Some (mem !! ptr_blob (GetDataPtr C)).
Proof.
  intros HA HB Hd _.
  apply ByteSize_well_known in Hd as [bs Hbs].
  destruct (MatmulCPU_run_memory A B s m k n bs HA HB Hbs)
    as (A_data & B_data & mem & rel & Hrun & Hmem).
  cbv zeta in Hrun. rewrite Hrun.
  eexists _, _, mem. split; [reflexivity|]. split; [reflexivity|].
  cbn [GetDataPtr data_ptr_ result_tensor ptr_blob]. split.
  - apply lookup_ge_None. reflexivity.
  - eexists. eapply prefix_lookup_Some; [|exact Hmem].
    rewrite lookup_app_r by reflexivity.
    rewrite Nat.sub_diag. reflexivity.
Qed.

(** C9, at the operands that break it.  For accepted operands whose dtype
    is narrower than four bytes ([UInt8], [UInt16], [Bool]), the one call of
    [cblas_sgemm] is handed, as its output, a pointer to the start of the
    buffer allocated for [C] during the call, and is asked to store more
    bytes through it than that buffer holds: the store runs past the end of
    the only buffer [MatmulCPU] allocated for it. *)
Theorem MatmulCPU_output_overrun A B s m k n bs :
  GetShape A = [m; k] ->
  GetShape B = [k; n] ->
  1 <= m -> 1 <= n ->
  DtypeUtil.ByteSize (GetDtype A) = Returned bs ->
  bs < 4 ->
  exists C args mem blob,
    (MatmulCPU' A B s).1 = Returned C
    /\ backend_calls (MatmulCPU' A B s).2
       = backend_calls s ++ [Call_cblas_sgemm args mem]
    /\ address (arg_C args) = GetDataPtr C
    /\ ptr_offset (GetDataPtr C) = 0
    /\ memory s !! ptr_blob (GetDataPtr C) = None
    /\ mem !! ptr_blob (GetDataPtr C) = Some blob
    /\ Z.of_nat (length (blob_bytes blob)) < sgemm_output_extent args.
Proof.
  intros HA HB Hm Hn Hbs Hnarrow.
  destruct (MatmulCPU_run_memory A B s m k n bs HA HB Hbs)
    as (A_data & B_data & mem & rel & Hrun & Hmem).
  cbv zeta in Hrun. rewrite Hrun.
  eexists _, _, mem, (zero_blob (GetDevice A) (bs * (m * n))).
  split; [reflexivity|]. split; [reflexivity|].
  split; [reflexivity|]. split; [reflexivity|].
  cbn [GetDataPtr data_ptr_ result_tensor ptr_blob]. split; [|split].
  - apply lookup_ge_None. reflexivity.
  - eapply prefix_lookup_Some; [|exact Hmem].
    rewrite lookup_app_r by reflexivity. rewrite Nat.sub_diag. reflexivity.
  - unfold sgemm_output_extent.
    cbn [arg_Layout arg_ldc arg_N arg_M matmul_args zero_blob blob_bytes].
    rewrite length_replicate.
    assert (Hcells : 1 <= m * n) by nia.
    destruct (Z_le_gt_dec 0 bs).
    + rewrite Z2Nat.id by nia. nia.
    + replace (Z.to_nat (bs * (m * n))) with 0%nat by nia. nia.
Qed.


(** For contiguous operands of any dtype the run is this one: the pointers
    passed are the data pointers of [A] and [B] themselves and of [C], cast
    to float pointers; the memory the backend is handed is the caller's
    memory followed by the zero-filled buffer of [C]; nothing has been
    released. *)
Theorem MatmulCPU_contiguous_operands A B s m k n bs :
  GetShape A = [m; k] ->
  GetShape B = [k; n] ->
  DtypeUtil.ByteSize (GetDtype A) = Returned bs ->
  contiguous_ A = true ->
  contiguous_ B = true ->
  MatmulCPU' A B s
  = let C := result_tensor A m n (length (memory s)) in
    let mem := memory s ++ [zero_blob (GetDevice A) (bs * (m * n))] in
    let args := matmul_args m n k (GetDataPtr A) (GetDataPtr B) (GetDataPtr C) in
    (Returned C,
     {| memory := sgemm_effect args mem;
        backend_calls := backend_calls s ++ [Call_cblas_sgemm args mem];
        released := released s |}).
Proof.
  intros HA HB Hbs EA EB.
  rewrite (MatmulCPU_run A B s m k n bs HA HB Hbs). cbv zeta.
  unfold contiguous_step. rewrite EA, EB. reflexivity.
Qed.

(** The contract of the external routine: when the bytes it is asked to
    store lie inside the blob its output pointer points into, it changes no
    other blob. *)
Hypothesis sgemm_writes_inside_output_extent :
  forall args mem blob i,
    mem !! ptr_blob (address (arg_C args)) = Some blob ->
    0 <= ptr_offset (address (arg_C args)) ->
    ptr_offset (address (arg_C args)) + sgemm_output_extent args
    <= Z.of_nat (length (blob_bytes blob)) ->
    i <> ptr_blob (address (arg_C args)) ->
    sgemm_effect args mem !! i = mem !! i.

(** For accepted operands whose dtype is at least four bytes wide, every
    blob that exists when [MatmulCPU] is called (the buffers of [A] and [B]
    among them) is the same after the call: the buffer of [C] is large
    enough for what the routine stores, so a routine that keeps its
    contract writes nothing else. *)
Theorem MatmulCPU_frame_when_output_fits A B s m k n bs i blob :
  GetShape A = [m; k] ->
  GetShape B = [k; n] ->
  1 <= m -> 1 <= n ->
  DtypeUtil.ByteSize (GetDtype A) = Returned bs ->
  4 <= bs ->
  memory s !! i = Some blob ->
  memory (MatmulCPU' A B s).2 !! i = Some blob.
Proof.
  intros HA HB Hm Hn Hbs Hwide Hi.
  pose proof (lookup_lt_Some _ _ _ Hi) as Hlt.
  destruct (MatmulCPU_run_memory A B s m k n bs HA HB Hbs)
    as (A_data & B_data & mem & rel & Hrun & Hmem).
  cbv zeta in Hrun. rewrite Hrun. cbn [snd memory].
  rewrite (sgemm_writes_inside_output_extent _ mem
             (zero_blob (GetDevice A) (bs * (m * n)))).
  - eapply prefix_lookup_Some; [|exact Hmem]. apply lookup_app_l_Some, Hi.
  - cbn [address arg_C matmul_args GetDataPtr data_ptr_ result_tensor ptr_blob].
    eapply prefix_lookup_Some; [|exact Hmem].
    rewrite lookup_app_r by reflexivity. rewrite Nat.sub_diag. reflexivity.
  - cbn. lia.
  - unfold sgemm_output_extent.
    cbn [address arg_C arg_Layout arg_ldc arg_N arg_M matmul_args GetDataPtr
         data_ptr_ result_tensor ptr_offset zero_blob blob_bytes].
    rewrite length_replicate. rewrite Z2Nat.id by nia. nia.
  - cbn. lia.
Qed.

End MatmulProperties.

(** ** The properties at concrete operands *)

(** The stand-in backend keeps the contract: it touches the output blob
    only. *)
Lemma overwriting_sgemm_writes_output_only args mem i :
  i <> ptr_blob (address (arg_C args)) ->
  overwriting_sgemm args mem !! i = mem !! i.
Proof.
  intros H. unfold overwriting_sgemm.
  apply list_lookup_alter_ne. intros E. apply H. symmetry. exact E.
Defined.

Lemma MatmulCPU_result_witness :
  exists C,
    (MatmulCPU sample_dense_bytes overwriting_sgemm A_2x3 B_3x1 two_blobs).1
    = Returned C
    /\ GetShape C = [2; 1]
    /\ GetDtype C = GetDtype A_2x3
    /\ GetDevice C = GetDevice A_2x3.
Proof.
  apply (MatmulCPU_result sample_dense_bytes overwriting_sgemm
           A_2x3 B_3x1 two_blobs 2 3 1);
    [reflexivity | reflexivity | lia | lia | lia | in_list].
Defined.

Lemma MatmulCPU_rank_check_witness :
  MatmulCPU sample_dense_bytes overwriting_sgemm A_rank3 B_3x1 two_blobs
  = (Thrown (RuntimeError "Tensor A must be 2D, but got 3D"), two_blobs).
Proof.
  apply (MatmulCPU_rank_check sample_dense_bytes overwriting_sgemm
           A_rank3 B_3x1 two_blobs).
  left. discriminate.
Defined.

Lemma MatmulCPU_inner_dimension_check_witness :
  MatmulCPU sample_dense_bytes overwriting_sgemm A_2x3 B_4x5 two_blobs
  = (Thrown (RuntimeError "Tensor A columns 3 mismatch with Tensor B rows 4"),
     two_blobs).
Proof.
  apply (MatmulCPU_inner_dimension_check sample_dense_bytes overwriting_sgemm
           A_2x3 B_4x5 two_blobs 2 3 4 5);
    [reflexivity | reflexivity | discriminate].
Defined.

Lemma MatmulCPU_sgemm_call_witness :
  exists args mem,
    backend_calls
      (MatmulCPU sample_dense_bytes overwriting_sgemm A_2x3 B_3x1 two_blobs).2
    = backend_calls two_blobs ++ [Call_cblas_sgemm args mem]
    /\ arg_Layout args = CblasColMajor
    /\ arg_TransA args = CblasNoTrans
    /\ arg_TransB args = CblasNoTrans
    /\ (arg_M args, arg_N args, arg_K args) = (2, 1, 3)
    /\ arg_alpha args = float32_of_bits 0x3F800000
    /\ arg_beta args = float32_of_bits 0
    /\ (arg_lda args, arg_ldb args, arg_ldc args) = (2, 3, 2)
    /\ ptr_offset (address (arg_C args)) = 0
    /\ mem !! ptr_blob (address (arg_C args))
       = Some {| blob_device := CPU; blob_bytes := replicate 8 Byte.x00 |}.
Proof.
  apply (MatmulCPU_sgemm_call sample_dense_bytes overwriting_sgemm
           A_2x3 B_3x1 two_blobs 2 3 1 4);
    reflexivity.
Defined.

Lemma MatmulCPU_no_dtype_device_check_witness :
  (GetDtype A_2x3 <> GetDtype B_3x1_uint8_strided
   \/ GetDevice A_2x3 <> GetDevice B_3x1_uint8_strided)
  /\ exists C args mem,
       (MatmulCPU sample_dense_bytes overwriting_sgemm
          A_2x3 B_3x1_uint8_strided two_blobs).1 = Returned C
       /\ backend_calls
            (MatmulCPU sample_dense_bytes overwriting_sgemm
               A_2x3 B_3x1_uint8_strided two_blobs).2
          = backend_calls two_blobs ++ [Call_cblas_sgemm args mem]
       /\ memory two_blobs !! ptr_blob (GetDataPtr C) = None
       /\ is_Some (mem !! ptr_blob (GetDataPtr C)).
Proof.
  assert (H : GetDtype A_2x3 <> GetDtype B_3x1_uint8_strided
              \/ GetDevice A_2x3 <> GetDevice B_3x1_uint8_strided)
    by (left; discriminate).
  split; [exact H|].
  apply (MatmulCPU_no_dtype_device_check sample_dense_bytes overwriting_sgemm
           A_2x3 B_3x1_uint8_strided two_blobs 2 3 1);
    [reflexivity | reflexivity | in_list | exact H].
Defined.

Lemma MatmulCPU_output_overrun_witness :
  exists C args mem blob,
    (MatmulCPU sample_dense_bytes overwriting_sgemm
       A_2x3_uint8 B_3x1 two_blobs).1 = Returned C
    /\ backend_calls
         (MatmulCPU sample_dense_bytes overwriting_sgemm
            A_2x3_uint8 B_3x1 two_blobs).2
       = backend_calls two_blobs ++ [Call_cblas_sgemm args mem]
    /\ address (arg_C args) = GetDataPtr C
    /\ ptr_offset (GetDataPtr C) = 0
    /\ memory two_blobs !! ptr_blob (GetDataPtr C) = None
    /\ mem !! ptr_blob (GetDataPtr C) = Some blob
    /\ Z.of_nat (length (blob_bytes blob)) < sgemm_output_extent args.
Proof.
  apply (MatmulCPU_output_overrun sample_dense_bytes overwriting_sgemm
           A_2x3_uint8 B_3x1 two_blobs 2 3 1 1);
    [reflexivity | reflexivity | lia | lia | reflexivity | lia].
Defined.


Lemma MatmulCPU_contiguous_operands_witness :
  MatmulCPU sample_dense_bytes overwriting_sgemm A_2x3_int64 B_3x1 two_blobs
  = let C := result_tensor A_2x3_int64 2 1 2 in
    let mem := memory two_blobs ++ [zero_blob CPU 16] in
    let args := matmul_args 2 1 3 (GetDataPtr A_2x3_int64) (GetDataPtr B_3x1)
                  (GetDataPtr C) in
    (Returned C,
     {| memory := overwriting_sgemm args mem;
        backend_calls := [Call_cblas_sgemm args mem];
        released := [] |}).
Proof.
  apply (MatmulCPU_contiguous_operands sample_dense_bytes overwriting_sgemm
           A_2x3_int64 B_3x1 two_blobs 2 3 1 8);
    reflexivity.
Defined.

(** The stand-in backend keeps the contract of the external routine. *)
Lemma overwriting_sgemm_writes_inside_output_extent args mem (blob : Blob) i :
  mem !! ptr_blob (address (arg_C args)) = Some blob ->
  0 <= ptr_offset (address (arg_C args)) ->
  ptr_offset (address (arg_C args)) + sgemm_output_extent args
  <= Z.of_nat (length (blob_bytes blob)) ->
  i <> ptr_blob (address (arg_C args)) ->
  overwriting_sgemm args mem !! i = mem !! i.
Proof.
  intros _ _ _ H. apply overwriting_sgemm_writes_output_only, H.
Defined.

Lemma MatmulCPU_frame_when_output_fits_witness :
  DtypeUtil.ByteSize (GetDtype A_2x3) = Returned 4
  /\ memory two_blobs !! 0%nat
     = Some {| blob_device := CPU; blob_bytes := replicate 24 Byte.x01 |}
  /\ memory (MatmulCPU sample_dense_bytes overwriting_sgemm
               A_2x3 B_3x1 two_blobs).2 !! 0%nat
     = Some {| blob_device := CPU; blob_bytes := replicate 24 Byte.x01 |}.
Proof.
  split; [reflexivity|]. split; [reflexivity|].
  apply (MatmulCPU_frame_when_output_fits sample_dense_bytes overwriting_sgemm
           overwriting_sgemm_writes_inside_output_extent
           A_2x3 B_3x1 two_blobs 2 3 1 4 0%nat);
    [reflexivity | reflexivity | lia | lia | reflexivity | lia | reflexivity].
Defined.

(** ** Further properties of the dtype registry *)

(** The two registries agree on byte sizes: for every type [T],
    [ObjDtype::FromType<T>().ByteSize()] and
    [DtypeUtil::ByteSize(DtypeUtil::FromType<T>())] return the same size,
    or throw the same exception. *)
Theorem ObjDtype_DtypeUtil_ByteSize_agree (name : ObjDtype.DtypeCode -> Z -> string)
    (T : CppType) :
  Outcome_map ObjDtype.ByteSize (ObjDtype.FromType name T)
  = Outcome_bind (DtypeUtil.FromType T) DtypeUtil.ByteSize.
Proof. destruct T; reflexivity. Qed.

(** The dtype code and the byte size together identify the type an
    [ObjDtype] was made from: two types with the same code and size are the
    same type. *)
Theorem ObjDtype_FromType_injective (name : ObjDtype.DtypeCode -> Z -> string)
    (T1 T2 : CppType) (d1 d2 : ObjDtype.t) :
  ObjDtype.FromType name T1 = Returned d1 ->
  ObjDtype.FromType name T2 = Returned d2 ->
  ObjDtype.dtype_code_ d1 = ObjDtype.dtype_code_ d2 ->
  ObjDtype.byte_size_ d1 = ObjDtype.byte_size_ d2 ->
  T1 = T2.
Proof.
  intros H1 H2.
  destruct T1; try discriminate H1; injection H1 as <-;
    destruct T2; try discriminate H2; injection H2 as <-;
    cbn; intros Hc Hs; try reflexivity; try discriminate Hc; discriminate Hs.
Qed.

Lemma ObjDtype_FromType_injective_witness :
  ObjDtype.FromType (fun _ _ => ""%string) c_bool
  = Returned (ObjDtype.Bool (fun _ _ => ""%string))
  /\ c_bool = c_bool.
Proof.
  split; [reflexivity|].
  apply (ObjDtype_FromType_injective (fun _ _ => ""%string) c_bool c_bool
           (ObjDtype.Bool (fun _ _ => ""%string))
           (ObjDtype.Bool (fun _ _ => ""%string)));
    reflexivity.
Defined.

(** Every well-known dtype is the dtype of exactly one supported type. *)
Theorem well_known_is_FromType_of_one_type (d : Dtype.t) :
  d ∈ Dtype.well_known ->
  exists T,
    T ∈ supported_types
    /\ DtypeUtil.FromType T = Returned d
    /\ forall T', DtypeUtil.FromType T' = Returned d -> T' = T.
Proof.
  unfold Dtype.well_known. rewrite !elem_of_cons, elem_of_nil.
  intros H; repeat destruct H as [-> | H]; try contradiction;
    [ exists c_float | exists c_double | exists c_int32_t | exists c_int64_t
    | exists c_uint8_t | exists c_uint16_t | exists c_bool ];
    (split; [unfold supported_types; in_list|]; split; [reflexivity|];
     intros T' HT'; destruct T'; try reflexivity; discriminate HT').
Qed.

Lemma well_known_is_FromType_of_one_type_witness :
  exists T,
    T ∈ supported_types
    /\ DtypeUtil.FromType T = Returned Dtype.UInt16
    /\ forall T', DtypeUtil.FromType T' = Returned Dtype.UInt16 -> T' = T.
Proof.
  apply (well_known_is_FromType_of_one_type Dtype.UInt16). in_list.
Defined.

Lemma ToString_returns_enumerator (d : Dtype.t) (label : string) :
  DtypeUtil.ToString d = Returned label -> d ∈ Dtype.enumerators.
Proof.
  intros H. destruct (decide (d ∈ Dtype.enumerators)) as [Hin | Hout]; [exact Hin|].
  rewrite (ToString_not_enumerator d Hout) in H. discriminate H.
Qed.

(** The label identifies the dtype: two dtype values for which [ToString]
    returns the same label are the same value. *)
Theorem ToString_injective (d1 d2 : Dtype.t) (label : string) :
  DtypeUtil.ToString d1 = Returned label ->
  DtypeUtil.ToString d2 = Returned label ->
  d1 = d2.
Proof.
  intros H1 H2.
  pose proof (ToString_returns_enumerator d1 label H1) as E1.
  pose proof (ToString_returns_enumerator d2 label H2) as E2.
  unfold Dtype.enumerators in E1, E2.
  rewrite !elem_of_cons, elem_of_nil in E1, E2.
  repeat destruct E1 as [-> | E1]; try contradiction;
    injection H1 as <-;
    repeat destruct E2 as [-> | E2]; try contradiction;
    try reflexivity; discriminate H2.
Qed.

Lemma ToString_injective_witness :
  DtypeUtil.ToString Dtype.Int32 = Returned "Int32"%string
  /\ Dtype.Int32 = 3.
Proof.
  split; [reflexivity|].
  apply (ToString_injective Dtype.Int32 3 "Int32"%string); reflexivity.
Defined.

(** [ByteSize] returns 1, 2, 4 or 8 and nothing else (in particular never
    the 0 its local starts at), and wherever it returns, [ToString] returns
    a label, which is not "Undefined". *)
Theorem ByteSize_range_and_label (d : Dtype.t) (bs : Z) :
  DtypeUtil.ByteSize d = Returned bs ->
  bs ∈ [1; 2; 4; 8]
  /\ exists label,
       DtypeUtil.ToString d = Returned label /\ label <> "Undefined"%string.
Proof.
  intros H.
  assert (Hd : d ∈ Dtype.well_known) by (apply ByteSize_well_known; eauto).
  unfold Dtype.well_known in Hd. rewrite !elem_of_cons, elem_of_nil in Hd.
  repeat destruct Hd as [-> | Hd]; try contradiction;
    injection H as <-;
    (split; [in_list | eexists; split; [reflexivity | discriminate]]).
Qed.

Lemma ByteSize_range_and_label_witness :
  DtypeUtil.ByteSize Dtype.UInt16 = Returned 2
  /\ 2 ∈ [1; 2; 4; 8]
  /\ exists label,
       DtypeUtil.ToString Dtype.UInt16 = Returned label
       /\ label <> "Undefined"%string.
Proof.
  split; [reflexivity|].
  apply (ByteSize_range_and_label Dtype.UInt16 2). reflexivity.
Defined.

(** The label of a dtype with a byte size, [Bool] apart, is a kind ("Float",
    "Int" or "UInt") followed by the width in bits, eight times the byte
    size [ByteSize] returns. *)
Theorem ToString_encodes_width (d : Dtype.t) (bs : Z) :
  DtypeUtil.ByteSize d = Returned bs ->
  d <> Dtype.Bool ->
  exists kind,
    kind ∈ width_kinds
    /\ DtypeUtil.ToString d = Returned (kind +:+ fmt_int (8 * bs)).
Proof.
  intros H Hb.
  assert (Hd : d ∈ Dtype.well_known) by (apply ByteSize_well_known; eauto).
  unfold Dtype.well_known in Hd. rewrite !elem_of_cons, elem_of_nil in Hd.
  repeat destruct Hd as [-> | Hd]; try contradiction; try (contradiction Hb; reflexivity);
    injection H as <-;
    [ exists "Float"%string | exists "Float"%string | exists "Int"%string
    | exists "Int"%string | exists "UInt"%string | exists "UInt"%string ];
    (split; [unfold width_kinds; in_list | reflexivity]).
Qed.

Lemma ToString_encodes_width_witness :
  DtypeUtil.ByteSize Dtype.Float64 = Returned 8
  /\ exists kind,
       kind ∈ width_kinds
       /\ DtypeUtil.ToString Dtype.Float64 = Returned (kind +:+ fmt_int (8 * 8)).
Proof.
  split; [reflexivity|].
  apply (ToString_encodes_width Dtype.Float64 8); [reflexivity | discriminate].
Defined.

(** ** Further properties of the CPU matrix-multiply path *)

Section MatmulOutcomes.

Variable dense_bytes : Tensor -> Memory -> list Byte.byte.
Variable sgemm_effect : sgemm_args -> Memory -> Memory.

Local Abbreviation MatmulCPU'' := (MatmulCPU dense_bytes sgemm_effect).

(** Stepping through the rank checks, the inner-dimension comparison and
    the three reads of [m], [k] and [n], once the shapes are known. *)
Ltac pass_rank_checks :=
  cbn [length Nat.eqb negb when];
  do 2 (unfold M_bind at 1; cbn [M_ret]);
  do 2 (unfold M_bind at 1; cbn [lift SizeVector_at lookup list_lookup]).

Ltac pass_shape_checks :=
  pass_rank_checks;
  rewrite Z.eqb_refl; cbn [negb when];
  unfold M_bind at 1; cbn [M_ret];
  do 3 (unfold M_bind at 1; cbn [lift SizeVector_at lookup list_lookup]).

Lemma MatmulCPU_throws_columns_rows A B s m k k' n :
  GetShape A = [m; k] ->
  GetShape B = [k'; n] ->
  k <> k' ->
  MatmulCPU'' A B s
  = (Thrown (RuntimeError
       (format "Tensor A columns {} mismatch with Tensor B rows {}"
          [fmt_int k; fmt_int k'])), s).
Proof.
  intros HA HB Hne. unfold MatmulCPU. rewrite HA, HB. pass_rank_checks.
  apply Z.eqb_neq in Hne. rewrite Hne. reflexivity.
Qed.

Lemma MatmulCPU_throws_dtype A B s m k n :
  GetShape A = [m; k] ->
  GetShape B = [k; n] ->
  GetDtype A ∉ Dtype.well_known ->
  MatmulCPU'' A B s = (Thrown (RuntimeError "Unsupported data type"), s).
Proof.
  intros HA HB Hd. unfold MatmulCPU. rewrite HA, HB. pass_shape_checks.
  unfold M_bind at 1.
  rewrite (Zeros_throws _ _ _ _ s (ByteSize_not_well_known _ Hd)).
  reflexivity.
Qed.

Lemma MatmulCPU_returns A B s m k n :
  GetShape A = [m; k] ->
  GetShape B = [k; n] ->
  GetDtype A ∈ Dtype.well_known ->
  (MatmulCPU'' A B s).1 = Returned (result_tensor A m n (length (memory s)))
  /\ exists args mem,
       backend_calls (MatmulCPU'' A B s).2
       = backend_calls s ++ [Call_cblas_sgemm args mem].
Proof.
  intros HA HB Hd. apply ByteSize_well_known in Hd as [bs Hbs].
  destruct (MatmulCPU_run_memory dense_bytes sgemm_effect A B s m k n bs HA HB Hbs)
    as (A_data & B_data & mem & rel & Hrun & _).
  cbv zeta in Hrun. rewrite Hrun. split; [reflexivity|].
  eexists _, _. reflexivity.
Qed.

(** The shapes of two operands fall in one of four classes, in the order
    the checks are made. *)
Lemma shape_classes (A_shape B_shape : SizeVector) :
  length A_shape <> 2%nat
  \/ (length A_shape = 2%nat /\ length B_shape <> 2%nat)
  \/ (exists m k k' n, A_shape = [m; k] /\ B_shape = [k'; n] /\ k <> k')
  \/ (exists m k n, A_shape = [m; k] /\ B_shape = [k; n]).
Proof.
  destruct A_shape as [|m [|k [|a3 A_rest]]]; try (left; discriminate).
  destruct B_shape as [|k' [|n [|b3 B_rest]]];
    try (right; left; split; [reflexivity | discriminate]).
  destruct (decide (k = k')) as [<- | Hne].
  - right; right; right. exists m, k, n. split; reflexivity.
  - right; right; left. exists m, k, k', n. repeat split; assumption.
Qed.

(** Either the call throws a [RuntimeError] and leaves the state as it
    was, the operands being rejected, or the operands are accepted. *)
Lemma MatmulCPU_table A B s :
  (exists msg, MatmulCPU'' A B s = (Thrown (RuntimeError msg), s)
               /\ ~ (length (GetShape A) = 2%nat
                     /\ length (GetShape B) = 2%nat
                     /\ GetShape A !! 1%nat = GetShape B !! 0%nat
                     /\ GetDtype A ∈ Dtype.well_known))
  \/ (exists m k n,
        GetShape A = [m; k] /\ GetShape B = [k; n]
        /\ GetDtype A ∈ Dtype.well_known).
Proof.
  destruct (shape_classes (GetShape A) (GetShape B))
    as [NA | [[EA NB] | [(m & k & k' & n & HA & HB & Hne) | (m & k & n & HA & HB)]]].
  - left. eexists. split.
    + unfold MatmulCPU. apply Nat.eqb_neq in NA. rewrite NA. reflexivity.
    + intros (EA & _). apply Nat.eqb_neq in NA. apply Nat.eqb_eq in EA. congruence.
  - left. eexists. split.
    + unfold MatmulCPU. apply Nat.eqb_eq in EA. apply Nat.eqb_neq in NB.
      rewrite EA, NB. reflexivity.
    + intros (_ & EB & _). contradiction.
  - left. eexists. split.
    + apply (MatmulCPU_throws_columns_rows A B s m k k' n HA HB Hne).
    + intros (_ & _ & E & _). rewrite HA, HB in E. cbn in E. congruence.
  - destruct (decide (GetDtype A ∈ Dtype.well_known)) as [Hd | Hd].
    + right. exists m, k, n. repeat split; assumption.
    + left. eexists. split.
      * apply (MatmulCPU_throws_dtype A B s m k n HA HB Hd).
      * intros (_ & _ & _ & Hd'). contradiction.
Qed.

(** All or nothing: a call either throws and leaves memory and the record
    of backend calls exactly as they were, or returns a tensor after
    exactly one backend call.  No call throws after the backend ran, and
    none returns without it. *)
Theorem MatmulCPU_all_or_nothing A B s :
  (exists e, MatmulCPU dense_bytes sgemm_effect A B s = (Thrown e, s))
  \/ (exists C args mem,
        (MatmulCPU dense_bytes sgemm_effect A B s).1 = Returned C
        /\ backend_calls (MatmulCPU dense_bytes sgemm_effect A B s).2
           = backend_calls s ++ [Call_cblas_sgemm args mem]).
Proof.
  destruct (MatmulCPU_table A B s) as [(msg & Hrun & _) | (m & k & n & HA & HB & Hd)].
  - left. eexists. exact Hrun.
  - right. destruct (MatmulCPU_returns A B s m k n HA HB Hd) as (HC & args & mem & Hcalls).
    eexists _, args, mem. split; [exact HC | exact Hcalls].
Qed.

(** No shape vector is ever indexed past its end: whatever the operands,
    the outcome is not the undefined behaviour of an out-of-range
    [operator[]], and every exception is a [RuntimeError] of [LogError]. *)
Theorem MatmulCPU_indexes_in_range A B s :
  (MatmulCPU dense_bytes sgemm_effect A B s).1 <> Thrown UndefinedBehavior
  /\ forall e, (MatmulCPU dense_bytes sgemm_effect A B s).1 = Thrown e -> exists msg, e = RuntimeError msg.
Proof.
  destruct (MatmulCPU_table A B s) as [(msg & Hrun & _) | (m & k & n & HA & HB & Hd)].
  - rewrite Hrun. split; [discriminate|].
    intros e He. injection He as <-. eexists. reflexivity.
  - destruct (MatmulCPU_returns A B s m k n HA HB Hd) as (HC & _).
    rewrite HC. split; [discriminate | intros e He; discriminate He].
Qed.

(** A call returns a tensor exactly when both operands have rank 2, the
    second size of [A] is the first size of [B], and the dtype of [A] is
    one of the seven well-known dtypes. *)
Theorem MatmulCPU_returns_iff A B s :
  (exists C, (MatmulCPU'' A B s).1 = Returned C)
  <-> (length (GetShape A) = 2%nat
       /\ length (GetShape B) = 2%nat
       /\ GetShape A !! 1%nat = GetShape B !! 0%nat
       /\ GetDtype A ∈ Dtype.well_known).
Proof.
  destruct (MatmulCPU_table A B s) as [(msg & Hrun & Hno) | (m & k & n & HA & HB & Hd)].
  - split.
    + intros [C HC]. rewrite Hrun in HC. discriminate HC.
    + intros Hyes. contradiction.
  - split.
    + intros _. rewrite HA, HB. repeat split. exact Hd.
    + intros _. eexists. apply (MatmulCPU_returns A B s m k n HA HB Hd).
Qed.

(** With shapes that pass the checks, an [A] whose dtype is not one of the
    seven well-known dtypes ([Undefined] among them) makes the call throw
    "Unsupported data type" before anything is allocated or computed. *)
Theorem MatmulCPU_rejects_unknown_dtype A B s m k n :
  GetShape A = [m; k] ->
  GetShape B = [k; n] ->
  GetDtype A ∉ Dtype.well_known ->
  MatmulCPU'' A B s = (Thrown (RuntimeError "Unsupported data type"), s).
Proof.
  intros HA HB Hd. exact (MatmulCPU_throws_dtype A B s m k n HA HB Hd).
Qed.

(** What a call returns or throws depends on the operands only through the
    shape, dtype and device of [A] and the shape of [B]: the dtype, device,
    data pointer and contiguity of [B], and the data pointer and contiguity
    of [A], are never consulted for it. *)
Theorem MatmulCPU_outcome_depends_on A A' B B' s :
  GetShape A = GetShape A' ->
  GetDtype A = GetDtype A' ->
  GetDevice A = GetDevice A' ->
  GetShape B = GetShape B' ->
  (MatmulCPU'' A B s).1 = (MatmulCPU'' A' B' s).1.
Proof.
  intros HS HD HV HSB.
  destruct (shape_classes (GetShape A) (GetShape B))
    as [NA | [[EA NB] | [(m & k & k' & n & HA & HB & Hne) | (m & k & n & HA & HB)]]].
  - unfold MatmulCPU. rewrite <- HS. apply Nat.eqb_neq in NA. rewrite NA.
    reflexivity.
  - unfold MatmulCPU. rewrite <- HS, <- HSB.
    apply Nat.eqb_eq in EA. apply Nat.eqb_neq in NB. rewrite EA, NB.
    reflexivity.
  - rewrite (MatmulCPU_throws_columns_rows A B s m k k' n HA HB Hne).
    rewrite HS in HA. rewrite HSB in HB.
    rewrite (MatmulCPU_throws_columns_rows A' B' s m k k' n HA HB Hne).
    reflexivity.
  - destruct (decide (GetDtype A ∈ Dtype.well_known)) as [Hd | Hd].
    + destruct (MatmulCPU_returns A B s m k n HA HB Hd) as (-> & _).
      rewrite HS in HA. rewrite HSB in HB. rewrite HD in Hd.
      destruct (MatmulCPU_returns A' B' s m k n HA HB Hd) as (-> & _).
      unfold result_tensor. rewrite HD, HV. reflexivity.
    + rewrite (MatmulCPU_throws_dtype A B s m k n HA HB Hd).
      rewrite HS in HA. rewrite HSB in HB. rewrite HD in Hd.
      rewrite (MatmulCPU_throws_dtype A' B' s m k n HA HB Hd).
      reflexivity.
Qed.

(** The buffer handed to [cblas_sgemm] as its output has room for the M by
    N matrix of 4-byte floats the routine is asked for exactly when the
    dtype of [A] is at least 4 bytes wide: for [UInt8], [UInt16] and [Bool]
    operands it is too small. *)
Theorem MatmulCPU_output_capacity A B s m k n bs :
  GetShape A = [m; k] ->
  GetShape B = [k; n] ->
  1 <= m -> 1 <= n ->
  DtypeUtil.ByteSize (GetDtype A) = Returned bs ->
  exists args mem blob,
    backend_calls (MatmulCPU'' A B s).2
    = backend_calls s ++ [Call_cblas_sgemm args mem]
    /\ mem !! ptr_blob (address (arg_C args)) = Some blob
    /\ (4 * (arg_M args * arg_N args) <= Z.of_nat (length (blob_bytes blob))
        <-> 4 <= bs).
Proof.
  intros HA HB Hm Hn Hbs.
  destruct (MatmulCPU_run_memory dense_bytes sgemm_effect A B s m k n bs HA HB Hbs)
    as (A_data & B_data & mem & rel & Hrun & Hmem).
  cbv zeta in Hrun. rewrite Hrun.
  eexists _, mem, (zero_blob (GetDevice A) (bs * (m * n))).
  split; [reflexivity|]. split.
  - cbn [address arg_C matmul_args GetDataPtr data_ptr_ result_tensor ptr_blob].
    eapply prefix_lookup_Some; [|exact Hmem].
    rewrite lookup_app_r by reflexivity. rewrite Nat.sub_diag. reflexivity.
  - cbn [arg_M arg_N matmul_args zero_blob blob_bytes].
    rewrite length_replicate.
    assert (Hpos : 1 <= bs).
    { assert (Hd : GetDtype A ∈ Dtype.well_known) by (apply ByteSize_well_known; eauto).
      unfold Dtype.well_known in Hd. rewrite !elem_of_cons, elem_of_nil in Hd.
      repeat destruct Hd as [Hd | Hd]; try contradiction;
        rewrite Hd in Hbs; injection Hbs as <-; lia. }
    rewrite Z2Nat.id by nia. nia.
Qed.

End MatmulOutcomes.

Lemma MatmulCPU_rejects_unknown_dtype_witness :
  (GetDtype A_2x3_undefined ∉ Dtype.well_known)
  /\ MatmulCPU sample_dense_bytes overwriting_sgemm A_2x3_undefined B_3x1 two_blobs
     = (Thrown (RuntimeError "Unsupported data type"), two_blobs).
Proof.
  assert (H : GetDtype A_2x3_undefined ∉ Dtype.well_known)
    by (apply (bool_decide_unpack _); exact I).
  split; [exact H|].
  apply (MatmulCPU_rejects_unknown_dtype sample_dense_bytes overwriting_sgemm
           A_2x3_undefined B_3x1 two_blobs 2 3 1);
    [reflexivity | reflexivity | exact H].
Defined.

Lemma MatmulCPU_outcome_depends_on_witness :
  (MatmulCPU sample_dense_bytes overwriting_sgemm A_2x3 B_3x1 two_blobs).1
  = (MatmulCPU sample_dense_bytes overwriting_sgemm
       A_2x3_elsewhere B_3x1_uint8_strided two_blobs).1.
Proof.
  apply (MatmulCPU_outcome_depends_on sample_dense_bytes overwriting_sgemm
           A_2x3 A_2x3_elsewhere B_3x1 B_3x1_uint8_strided two_blobs);
    reflexivity.
Defined.

Lemma MatmulCPU_output_capacity_witness :
  DtypeUtil.ByteSize (GetDtype A_2x3_uint8) = Returned 1
  /\ exists args mem blob,
       backend_calls
         (MatmulCPU sample_dense_bytes overwriting_sgemm
            A_2x3_uint8 B_3x1 two_blobs).2
       = backend_calls two_blobs ++ [Call_cblas_sgemm args mem]
       /\ mem !! ptr_blob (address (arg_C args)) = Some blob
       /\ (4 * (arg_M args * arg_N args) <= Z.of_nat (length (blob_bytes blob))
           <-> 4 <= 1).
Proof.
  split; [reflexivity|].
  apply (MatmulCPU_output_capacity sample_dense_bytes overwriting_sgemm
           A_2x3_uint8 B_3x1 two_blobs 2 3 1 1);
    [reflexivity | reflexivity | lia | lia | reflexivity].
Defined.
